(** * The version reporter of [assets/main.cpp]

    The program declares one [const Version version], passes its three
    [const char *] members to three [printf] calls and returns 0.  This
    development embeds that program in a small state-and-undefined-behaviour
    monad over a process state (standard output, the outcomes the platform
    will give to the coming writes, the [Version] objects alive), and proves
    the reporting contract about the embedding. *)

From Stdlib Require Import String Ascii List ZArith Lia Bool.
Import ListNotations.
Open Scope string_scope.

(** ** C strings *)

Definition NUL : ascii := "000"%char.
Definition LF : ascii := "010"%char.

(** The one-character string a C literal writes as ["\n"]. *)
Definition nl : string := String LF EmptyString.

(** A [const char *]: the null pointer, or a pointer to a character array.
    [Some a] holds the characters of the array that come before its final
    terminator. *)
Definition cstr : Type := option string.

(** The text a character array denotes as a C string: its characters up to,
    and not including, the first NUL. *)
Fixpoint c_text (a : string) : string :=
  match a with
  | EmptyString => EmptyString
  | String c rest => if Ascii.eqb c NUL then EmptyString else String c (c_text rest)
  end.

(** The text behind a pointer; the null pointer has none. *)
Definition text_of (p : cstr) : string :=
  match p with
  | Some a => c_text a
  | None => EmptyString
  end.

Fixpoint nul_free (a : string) : bool :=
  match a with
  | EmptyString => true
  | String c rest => negb (Ascii.eqb c NUL) && nul_free rest
  end.

Fixpoint no_percent (a : string) : bool :=
  match a with
  | EmptyString => true
  | String c rest => negb (Ascii.eqb c "%"%char) && no_percent rest
  end.

Fixpoint no_lf (a : string) : bool :=
  match a with
  | EmptyString => true
  | String c rest => negb (Ascii.eqb c LF) && no_lf rest
  end.

(** The newline-terminated lines of a text, in order; characters after the
    last newline form a last, unterminated line. *)
Fixpoint lines (s : string) : list string :=
  match s with
  | EmptyString => []
  | String c rest =>
      if Ascii.eqb c LF then EmptyString :: lines rest
      else match lines rest with
           | [] => [String c EmptyString]
           | l :: ls => String c l :: ls
           end
  end.

(** ** [Version] (declared in [version.h]) *)

(** Modelled from the spec: the type [Version], declared in [version.h],
    which is not among the sources.  Its members are the three that [main]
    reads, each passed to a [%s] and so a [const char *]: the package
    identifier, the revision hash and the revision description. *)
Record Version : Type := {
  package : cstr;
  git_sha1 : cstr;
  git_description : cstr
}.

(** Modelled from the spec: the three text values fixed at build time, which
    the external generation step supplies to the constructor. *)
Record BuildInfo : Type := {
  build_package : string;
  build_revision_hash : string;
  build_revision_description : string
}.

Definition non_null (v : Version) : Prop :=
  package v <> None /\ git_sha1 v <> None /\ git_description v <> None.

(** ** The process *)

(** What the platform does with one write to standard output: it transmits
    the whole text, or it fails after some of its characters. *)
Inductive write_result : Type :=
  | Transmitted
  | OutputError (sent : nat).

Record process : Type := {
  stdout : string;              (* characters transmitted so far *)
  faults : list write_result;   (* outcomes of the coming writes; none left: all succeed *)
  objects : list Version        (* Version objects constructed so far, oldest first *)
}.

(** A computation ends normally with a value and a new process state, or has
    undefined behaviour. *)
Inductive outcome (A : Type) : Type :=
  | Normal (a : A) (s : process)
  | Undefined.
Arguments Normal {A} a s.
Arguments Undefined {A}.

Definition M (A : Type) : Type := process -> outcome A.

Definition ret {A : Type} (a : A) : M A := fun s => Normal a s.

Definition bind {A B : Type} (m : M A) (k : A -> M B) : M B :=
  fun s => match m s with
           | Normal a s' => k a s'
           | Undefined => Undefined
           end.

Notation "x <- m ;; k" := (bind m (fun x => k))
  (at level 61, m at next level, right associativity).

Definition exit_status {A : Type} (o : outcome A) : option A :=
  match o with
  | Normal a _ => Some a
  | Undefined => None
  end.

Definition final {A : Type} (o : outcome A) : option process :=
  match o with
  | Normal _ s => Some s
  | Undefined => None
  end.

(** ** [printf] *)

(** The conversions of a format: ordinary characters are copied, [%%] gives
    a percent sign, [%s] takes the next argument, which must point to a
    string, and copies its text.  [None] is undefined behaviour (a null or
    missing argument) or a directive outside this fragment. *)
Fixpoint vformat (fmt : string) (args : list cstr) : option string :=
  match fmt with
  | EmptyString => Some EmptyString
  | String c rest =>
      if Ascii.eqb c "%"%char then
        match rest with
        | EmptyString => None
        | String d rest' =>
            if Ascii.eqb d "s"%char then
              match args with
              | Some a :: args' =>
                  option_map (append (c_text a)) (vformat rest' args')
              | _ => None
              end
            else if Ascii.eqb d "%"%char then
              option_map (String "%"%char) (vformat rest' args)
            else None
        end
      else option_map (String c) (vformat rest args)
  end.

(** The first [n] characters of a text. *)
Definition take (n : nat) (s : string) : string := substring 0 n s.

(** One write of [text] to standard output, with the outcome the platform
    has next in store: the characters that get through and [printf]'s return
    value (the number of characters, or a negative value on an output
    error). *)
Definition transmit (text : string) : M Z :=
  fun s =>
    match faults s with
    | [] =>
        Normal (Z.of_nat (String.length text))
               {| stdout := stdout s ++ text; faults := []; objects := objects s |}
    | Transmitted :: later =>
        Normal (Z.of_nat (String.length text))
               {| stdout := stdout s ++ text; faults := later; objects := objects s |}
    | OutputError sent :: later =>
        Normal (-1)%Z
               {| stdout := stdout s ++ take sent text; faults := later;
                  objects := objects s |}
    end.

Definition printf (fmt : string) (args : list cstr) : M Z :=
  match vformat (c_text fmt) args with
  | Some text => transmit text
  | None => fun _ => Undefined
  end.

(** ** Objects *)

(** Reading member [f] of the object [r] refers to. *)
Definition member (r : nat) (f : Version -> cstr) : M cstr :=
  fun s => match nth_error (objects s) r with
           | Some v => Normal (f v) s
           | None => Undefined
           end.

(** Modelled from the spec: the value the default constructor of [Version]
    builds; the constructor is declared in [version.h], which is not among
    the sources.  It takes no argument from its caller and sets the three
    members to the texts fixed at build time. *)
Definition Version_of (b : BuildInfo) : Version :=
  {| package := Some (build_package b);
     git_sha1 := Some (build_revision_hash b);
     git_description := Some (build_revision_description b) |}.

(** Modelled from the spec: running the default constructor of [Version]
    (from [version.h], not among the sources) on fresh storage, as the
    declaration [const Version version;] does.  It cannot fail, writes
    nothing, and returns the reference to the new object. *)
Definition Version_new (b : BuildInfo) : M nat :=
  fun s =>
    Normal (List.length (objects s))
           {| stdout := stdout s; faults := faults s;
              objects := (objects s ++ [Version_of b])%list |}.

(** ** The program *)

Section Program.

(** The texts the build of this executable pinned into [version.h]. *)
Variable build : BuildInfo.

(** [int main(int argc, char **argv)] *)
Definition main (argc : Z) (argv : list cstr) : M Z :=
  version <- Version_new build ;;
  a <- member version package ;;
  _ <- printf ("package %s" ++ nl) [a] ;;
  a <- member version git_sha1 ;;
  _ <- printf ("git sha = %s" ++ nl) [a] ;;
  a <- member version git_description ;;
  _ <- printf ("git decription = %s" ++ nl) [a] ;;
  ret 0%Z.

End Program.

(** The three writes of [main] (its lines 6 to 8), which the specification
    calls [report()], on the object [version] refers to. *)
Definition report (version : nat) : M unit :=
  a <- member version package ;;
  _ <- printf ("package %s" ++ nl) [a] ;;
  a <- member version git_sha1 ;;
  _ <- printf ("git sha = %s" ++ nl) [a] ;;
  a <- member version git_description ;;
  _ <- printf ("git decription = %s" ++ nl) [a] ;;
  ret tt.

(** [n] calls in succession. *)
Fixpoint times (n : nat) (m : M unit) : M unit :=
  match n with
  | O => ret tt
  | S n' => _ <- m ;; times n' m
  end.

(** The text [report] sends for an object. *)
Definition report_text (v : Version) : string :=
  "package " ++ text_of (package v) ++ nl ++
  "git sha = " ++ text_of (git_sha1 v) ++ nl ++
  "git decription = " ++ text_of (git_description v) ++ nl.

Fixpoint replicate (n : nat) (t : string) : string :=
  match n with
  | O => EmptyString
  | S n' => t ++ replicate n' t
  end.

(** The process as the platform starts it: nothing written, no object, and
    the write outcomes [env] ahead. *)
Definition start (env : list write_result) : process :=
  {| stdout := EmptyString; faults := env; objects := [] |}.

(** A computation that leaves every [Version] object as it found it. *)
Definition preserves_objects {A : Type} (m : M A) : Prop :=
  forall s a s', m s = Normal a s' -> objects s' = objects s.

(** What a complete run of the program leaves on standard output. *)
Definition program_output (b : BuildInfo) (argc : Z) (argv : list cstr)
    (env : list write_result) : option string :=
  option_map stdout (final (main b argc argv (start env))).

(** Builds used as concrete inputs below. *)
Definition demo_build : BuildInfo :=
  {| build_package := "demo-pkg";
     build_revision_hash := "abc1234";
     build_revision_description := "v1.2.0-3-gabc1234" |}.

Definition empty_build : BuildInfo :=
  {| build_package := EmptyString;
     build_revision_hash := EmptyString;
     build_revision_description := EmptyString |}.

Definition two_line_build : BuildInfo :=
  {| build_package := "a" ++ nl ++ "b";
     build_revision_hash := "abc1234";
     build_revision_description := "v1" |}.

Definition percent_version : Version :=
  {| package := Some "100%s"; git_sha1 := Some "%n%n"; git_description := Some "%d%%" |}.

Definition null_package_version : Version :=
  {| package := None; git_sha1 := Some "abc1234"; git_description := Some "v1" |}.

(** The characters of [text] that reach standard output when the platform
    answers the write with [w]; with no outcome in store the write
    succeeds. *)
Definition delivered (w : option write_result) (text : string) : string :=
  match w with
  | Some (OutputError sent) => take sent text
  | _ => text
  end.

(** The number of newline characters of a text. *)
Fixpoint count_lf (a : string) : nat :=
  match a with
  | EmptyString => O
  | String c rest => if Ascii.eqb c LF then S (count_lf rest) else count_lf rest
  end.

(** * Properties *)

(** ** Strings *)

Lemma append_assoc (a b c : string) : (a ++ b) ++ c = a ++ b ++ c.
Proof.
  induction a as [|x a IH]; simpl.
  - reflexivity.
  - now rewrite IH.
Qed.

Lemma append_empty_r (a : string) : a ++ EmptyString = a.
Proof.
  induction a as [|x a IH]; simpl; [reflexivity | now rewrite IH].
Qed.

Lemma c_text_nul_free (a : string) : nul_free a = true -> c_text a = a.
Proof.
  induction a as [|x a IH]; simpl; intros H.
  - reflexivity.
  - apply andb_true_iff in H as [Hx Ha].
    apply negb_true_iff in Hx. rewrite Hx. now rewrite IH.
Qed.

Lemma c_text_is_nul_free (a : string) : nul_free (c_text a) = true.
Proof.
  induction a as [|x a IH]; simpl.
  - reflexivity.
  - destruct (Ascii.eqb x NUL) eqn:E; simpl.
    + reflexivity.
    + now rewrite E, IH.
Qed.

Lemma c_text_idempotent (a : string) : c_text (c_text a) = c_text a.
Proof. apply c_text_nul_free, c_text_is_nul_free. Qed.

Lemma no_lf_app (a b : string) : no_lf (a ++ b) = no_lf a && no_lf b.
Proof.
  induction a as [|x a IH]; simpl.
  - reflexivity.
  - now rewrite IH, andb_assoc.
Qed.

(** A text without newline, followed by a newline, is the first line. *)
Lemma lines_first (a rest : string) :
  no_lf a = true -> lines (a ++ nl ++ rest) = a :: lines rest.
Proof.
  induction a as [|x a IH]; intros H; simpl in *.
  - reflexivity.
  - apply andb_true_iff in H as [Hx Ha].
    apply negb_true_iff in Hx. rewrite Hx, (IH Ha). reflexivity.
Qed.


(** ** The monad *)

Lemma bind_normal {A B : Type} (m : M A) (k : A -> M B) (s : process) (a : A)
    (s' : process) :
  m s = Normal a s' -> bind m k s = k a s'.
Proof. intros E. unfold bind. now rewrite E. Qed.

Lemma bind_undefined {A B : Type} (m : M A) (k : A -> M B) (s : process) :
  m s = Undefined -> bind m k s = Undefined.
Proof. intros E. unfold bind. now rewrite E. Qed.

Lemma bind_assoc {A B C : Type} (m : M A) (k : A -> M B) (h : B -> M C)
    (s : process) :
  bind (bind m k) h s = bind m (fun a => bind (k a) h) s.
Proof. unfold bind. destruct (m s); reflexivity. Qed.

Lemma preserves_ret {A : Type} (a : A) : preserves_objects (ret a).
Proof. intros s a' s' E. now inversion E. Qed.

Lemma preserves_bind {A B : Type} (m : M A) (k : A -> M B) :
  preserves_objects m -> (forall a, preserves_objects (k a)) ->
  preserves_objects (bind m k).
Proof.
  intros Hm Hk s b s' E. unfold bind in E.
  destruct (m s) as [a s1|] eqn:E1; [|discriminate].
  rewrite (Hk a s1 b s' E). exact (Hm s a s1 E1).
Qed.

(** ** [printf] *)

(** In front of a [%s], a text without percent sign is copied as it is; the
    text of the argument follows, whatever its characters, and the rest of
    the format goes on with the other arguments. *)
Lemma vformat_literal_s (lit rest a : string) (args : list cstr) :
  no_percent lit = true ->
  vformat (lit ++ "%s" ++ rest) (Some a :: args)
  = option_map (fun t => lit ++ c_text a ++ t) (vformat rest args).
Proof.
  induction lit as [|x lit IH]; intros H; simpl in *.
  - destruct (vformat rest args); reflexivity.
  - apply andb_true_iff in H as [Hx Hl].
    apply negb_true_iff in Hx. rewrite Hx, (IH Hl).
    destruct (vformat rest args); reflexivity.
Qed.

(** A null pointer for [%s] is undefined behaviour. *)
Lemma vformat_literal_null (lit rest : string) (args : list cstr) :
  no_percent lit = true ->
  vformat (lit ++ "%s" ++ rest) (None :: args) = None.
Proof.
  induction lit as [|x lit IH]; intros H; simpl in *.
  - reflexivity.
  - apply andb_true_iff in H as [Hx Hl].
    apply negb_true_iff in Hx. now rewrite Hx, (IH Hl).
Qed.

Lemma printf_package (a : string) (s : process) :
  printf ("package %s" ++ nl) [Some a] s
  = transmit ("package " ++ c_text a ++ nl) s.
Proof. reflexivity. Qed.

Lemma printf_git_sha (a : string) (s : process) :
  printf ("git sha = %s" ++ nl) [Some a] s
  = transmit ("git sha = " ++ c_text a ++ nl) s.
Proof. reflexivity. Qed.

Lemma printf_git_decription (a : string) (s : process) :
  printf ("git decription = %s" ++ nl) [Some a] s
  = transmit ("git decription = " ++ c_text a ++ nl) s.
Proof. reflexivity. Qed.

(** Whatever the platform does with a write, [printf] returns and no object
    changes. *)
Lemma transmit_normal (text : string) (s : process) :
  exists z s', transmit text s = Normal z s' /\ objects s' = objects s.
Proof.
  unfold transmit. destruct (faults s) as [|[|sent] later].
  all: eexists; eexists; split; reflexivity.
Qed.

Lemma transmit_no_fault (text out : string) (objs : list Version) :
  transmit text {| stdout := out; faults := []; objects := objs |}
  = Normal (Z.of_nat (String.length text))
           {| stdout := out ++ text; faults := []; objects := objs |}.
Proof. reflexivity. Qed.

Lemma preserves_transmit (text : string) : preserves_objects (transmit text).
Proof.
  intros s z s' E.
  destruct (transmit_normal text s) as (z1 & s1 & E1 & O1).
  rewrite E1 in E. now inversion E; subst.
Qed.

Lemma preserves_printf (fmt : string) (args : list cstr) :
  preserves_objects (printf fmt args).
Proof.
  unfold printf. destruct (vformat (c_text fmt) args) as [text|].
  - apply preserves_transmit.
  - intros s z s' E. discriminate.
Qed.

(** ** Objects *)

Lemma member_at (r : nat) (f : Version -> cstr) (s : process) (v : Version) :
  nth_error (objects s) r = Some v -> member r f s = Normal (f v) s.
Proof. intros E. unfold member. now rewrite E. Qed.

Lemma preserves_member (r : nat) (f : Version -> cstr) :
  preserves_objects (member r f).
Proof.
  intros s a s' E. unfold member in E.
  destruct (nth_error (objects s) r); [|discriminate].
  now inversion E; subst.
Qed.

Lemma nth_error_snoc (l : list Version) (v : Version) :
  nth_error (l ++ [v])%list (List.length l) = Some v.
Proof.
  rewrite nth_error_app2 by lia. now rewrite Nat.sub_diag.
Qed.

Create HintDb frame.
#[local] Hint Resolve preserves_ret preserves_printf preserves_member : frame.

Lemma preserves_report (r : nat) : preserves_objects (report r).
Proof.
  unfold report.
  repeat (apply preserves_bind; [auto with frame | intros ?]).
  auto with frame.
Qed.

Lemma preserves_times (n : nat) (m : M unit) :
  preserves_objects m -> preserves_objects (times n m).
Proof.
  intros Hm. induction n as [|n IH]; simpl.
  - apply preserves_ret.
  - apply preserves_bind; [exact Hm | intros _; exact IH].
Qed.

(** ** [report] *)

(** One line of the report: the member is read and its text is sent. *)
Ltac line H E :=
  rewrite (bind_normal _ _ _ _ _ (member_at _ _ _ _ H)); cbv beta;
  cbn [package git_sha1 git_description];
  rewrite (bind_normal _ _ _ _ _ E); cbv beta.

(** With three members that point to strings, [report] returns, whatever
    happens to its writes. *)
Lemma report_returns (r : nat) (s : process) (v : Version) :
  nth_error (objects s) r = Some v -> non_null v ->
  exists s', report r s = Normal tt s'.
Proof.
  intros H (Hp & Hh & Hd).
  destruct v as [[p|] [h|] [d|]]; cbn in Hp, Hh, Hd; try congruence.
  destruct (transmit_normal ("package " ++ c_text p ++ nl) s)
    as (z1 & s1 & E1 & O1).
  destruct (transmit_normal ("git sha = " ++ c_text h ++ nl) s1)
    as (z2 & s2 & E2 & O2).
  destruct (transmit_normal ("git decription = " ++ c_text d ++ nl) s2)
    as (z3 & s3 & E3 & O3).
  rewrite <- printf_package in E1.
  rewrite <- printf_git_sha in E2.
  rewrite <- printf_git_decription in E3.
  assert (H1 := H). rewrite <- O1 in H1.
  assert (H2 := H1). rewrite <- O2 in H2.
  exists s3. unfold report.
  line H E1. line H1 E2. line H2 E3. reflexivity.
Qed.

(** When no write fails, [report] appends its three lines. *)
Lemma report_no_fault (r : nat) (out : string) (objs : list Version) (v : Version) :
  nth_error objs r = Some v -> non_null v ->
  report r {| stdout := out; faults := []; objects := objs |}
  = Normal tt {| stdout := out ++ report_text v; faults := []; objects := objs |}.
Proof.
  intros H (Hp & Hh & Hd).
  destruct v as [[p|] [h|] [d|]]; cbn in Hp, Hh, Hd; try congruence.
  unfold report, report_text, text_of; cbn [package git_sha1 git_description].
  pose proof (fun o => member_at r package {| stdout := o; faults := []; objects := objs |} _ H) as Mp.
  pose proof (fun o => member_at r git_sha1 {| stdout := o; faults := []; objects := objs |} _ H) as Mh.
  pose proof (fun o => member_at r git_description {| stdout := o; faults := []; objects := objs |} _ H) as Md.
  cbn [package git_sha1 git_description] in Mp, Mh, Md.
  rewrite (bind_normal _ _ _ _ _ (Mp _)); cbv beta.
  rewrite (bind_normal _ _ _ _ _ (eq_trans (printf_package _ _) (transmit_no_fault _ _ _))); cbv beta.
  rewrite (bind_normal _ _ _ _ _ (Mh _)); cbv beta.
  rewrite (bind_normal _ _ _ _ _ (eq_trans (printf_git_sha _ _) (transmit_no_fault _ _ _))); cbv beta.
  rewrite (bind_normal _ _ _ _ _ (Md _)); cbv beta.
  rewrite (bind_normal _ _ _ _ _ (eq_trans (printf_git_decription _ _) (transmit_no_fault _ _ _))); cbv beta.
  unfold ret. now rewrite !append_assoc.
Qed.

(** A null member makes the first write undefined. *)
Lemma report_null_package (r : nat) (s : process) (v : Version) :
  nth_error (objects s) r = Some v -> package v = None ->
  report r s = Undefined.
Proof.
  intros H Hp. unfold report.
  rewrite (bind_normal _ _ _ _ _ (member_at _ _ _ _ H)); cbv beta.
  rewrite Hp. reflexivity.
Qed.

(** ** [main] *)

(** [main] is the construction, the report, and [return 0]. *)
Lemma main_as_report (b : BuildInfo) (argc : Z) (argv : list cstr) (s : process) :
  main b argc argv s
  = (version <- Version_new b ;; _ <- report version ;; ret 0%Z) s.
Proof.
  unfold main, report.
  unfold bind at 1. symmetry. unfold bind at 1.
  destruct (Version_new b s) as [version s0|]; [|reflexivity].
  repeat (rewrite bind_assoc; unfold bind at 1; symmetry; unfold bind at 1;
          match goal with
          | |- match ?m with _ => _ end = _ => destruct m; [|reflexivity]
          end).
  reflexivity.
Qed.

Lemma non_null_Version_of (b : BuildInfo) : non_null (Version_of b).
Proof. repeat split; discriminate. Qed.

Lemma main_returns (b : BuildInfo) (argc : Z) (argv : list cstr) (s : process) :
  exists s', main b argc argv s = Normal 0%Z s'
             /\ objects s' = (objects s ++ [Version_of b])%list.
Proof.
  rewrite main_as_report.
  set (s0 := {| stdout := stdout s; faults := faults s;
                objects := (objects s ++ [Version_of b])%list |}).
  assert (E0 : Version_new b s = Normal (List.length (objects s)) s0) by reflexivity.
  rewrite (bind_normal _ _ _ _ _ E0); cbv beta.
  destruct (report_returns (List.length (objects s)) s0 (Version_of b))
    as (s1 & E1).
  - apply nth_error_snoc.
  - apply non_null_Version_of.
  - rewrite (bind_normal _ _ _ _ _ E1). exists s1. split; [reflexivity|].
    exact (preserves_report _ _ _ _ E1).
Qed.

Lemma main_no_fault (b : BuildInfo) (argc : Z) (argv : list cstr) (out : string)
    (objs : list Version) :
  main b argc argv {| stdout := out; faults := []; objects := objs |}
  = Normal 0%Z {| stdout := out ++ report_text (Version_of b); faults := [];
                  objects := (objs ++ [Version_of b])%list |}.
Proof.
  rewrite main_as_report.
  unfold bind at 1. cbn [Version_new stdout faults objects].
  rewrite (bind_normal _ _ _ _ _
             (report_no_fault _ _ _ _ (nth_error_snoc objs (Version_of b))
                              (non_null_Version_of b))).
  reflexivity.
Qed.

Lemma program_output_no_fault (b : BuildInfo) (argc : Z) (argv : list cstr) :
  program_output b argc argv [] = Some (report_text (Version_of b)).
Proof.
  unfold program_output, start. now rewrite main_no_fault.
Qed.

(** * The reporting contract *)

(** C1.  For every three field values, a run of the program writes to
    standard output exactly three newline-terminated lines: [package ]
    followed by the package text, [git sha = ] followed by the revision
    hash, and [git decription = ] (spelt so) followed by the revision
    description, in this order.  The text of a field is what the C string
    holds: its characters up to the first NUL. *)
Theorem main_writes_three_lines (p h d : string) (argc : Z) (argv : list cstr) :
  program_output
    {| build_package := p; build_revision_hash := h;
       build_revision_description := d |} argc argv []
  = Some ("package " ++ c_text p ++ nl ++
          "git sha = " ++ c_text h ++ nl ++
          "git decription = " ++ c_text d ++ nl).
Proof. apply program_output_no_fault. Qed.

(** C2.  Constructing the version value from [demo-pkg], [abc1234] and
    [v1.2.0-3-gabc1234] and reporting it writes exactly the three lines
    [package demo-pkg], [git sha = abc1234] and
    [git decription = v1.2.0-3-gabc1234]. *)
Theorem report_demo_output :
  (version <- Version_new demo_build ;; report version) (start [])
  = Normal tt
      {| stdout := "package demo-pkg" ++ nl ++
                   "git sha = abc1234" ++ nl ++
                   "git decription = v1.2.0-3-gabc1234" ++ nl;
         faults := [];
         objects := [ {| package := Some "demo-pkg";
                         git_sha1 := Some "abc1234";
                         git_description := Some "v1.2.0-3-gabc1234" |} ] |}.
Proof. reflexivity. Qed.

(** C3.  Two invocations with the same field values, in the same
    environment, and any two argument counts and argument vectors, end in
    the same way: the same standard output, and exit code 0 for both. *)
Theorem main_ignores_arguments (b : BuildInfo) (argc1 argc2 : Z)
    (argv1 argv2 : list cstr) (s : process) :
  main b argc1 argv1 s = main b argc2 argv2 s
  /\ option_map stdout (final (main b argc1 argv1 s))
     = option_map stdout (final (main b argc2 argv2 s))
  /\ exit_status (main b argc1 argv1 s) = Some 0%Z
  /\ exit_status (main b argc2 argv2 s) = Some 0%Z.
Proof.
  destruct (main_returns b argc1 argv1 s) as (s1 & E1 & _).
  destruct (main_returns b argc2 argv2 s) as (s2 & E2 & _).
  assert (E : main b argc1 argv1 s = main b argc2 argv2 s) by reflexivity.
  split; [exact E|]. split; [now rewrite E|].
  split; [now rewrite E1 | now rewrite E2].
Qed.

(** C4.  The exit status is 0 in every scenario: for all field values, the
    three empty ones among them, for all arguments, and whatever the outcome
    of each write to standard output. *)
Theorem main_exit_status_zero (b : BuildInfo) (argc : Z) (argv : list cstr)
    (s : process) :
  exit_status (main b argc argv s) = Some 0%Z
  /\ exit_status (main empty_build argc argv s) = Some 0%Z.
Proof.
  split.
  - destruct (main_returns b argc argv s) as (s' & E & _). now rewrite E.
  - destruct (main_returns empty_build argc argv s) as (s' & E & _).
    now rewrite E.
Qed.

(** C5.  Any number of reports of one instance in succession write the same
    text each time, and leave the instance, with every other object, as it
    was. *)
Theorem report_idempotent (n r : nat) (out : string) (objs : list Version)
    (v : Version) :
  nth_error objs r = Some v ->
  non_null v ->
  times n (report r) {| stdout := out; faults := []; objects := objs |}
  = Normal tt {| stdout := out ++ replicate n (report_text v); faults := [];
                 objects := objs |}.
Proof.
  intros H Hv. revert out.
  induction n as [|n IH]; intros out; simpl.
  - unfold ret. now rewrite append_empty_r.
  - rewrite (bind_normal _ _ _ _ _ (report_no_fault r out objs v H Hv)).
    rewrite IH. now rewrite append_assoc.
Qed.

Lemma report_idempotent_witness :
  nth_error [Version_of demo_build] 0 = Some (Version_of demo_build)
  /\ non_null (Version_of demo_build)
  /\ times 2 (report 0)
       {| stdout := EmptyString; faults := [];
          objects := [Version_of demo_build] |}
     = Normal tt
         {| stdout :=
              EmptyString ++ replicate 2 (report_text (Version_of demo_build));
            faults := [];
            objects := [Version_of demo_build] |}.
Proof.
  split; [reflexivity|]. split.
  - repeat split; discriminate.
  - apply (report_idempotent 2 0 EmptyString [Version_of demo_build]
             (Version_of demo_build)).
    + reflexivity.
    + repeat split; discriminate.
Defined.

(** C6, as stated, fails: a package text that holds a newline gives an
    output of four lines. *)
Lemma three_lines_counterexample :
  option_map lines (program_output two_line_build 1 [Some "version"] [])
  = Some ["package a"; "b"; "git sha = abc1234"; "git decription = v1"]
  /\ option_map (fun out => List.length (lines out))
       (program_output two_line_build 1 [Some "version"] [])
     <> Some 3%nat.
Proof. split; [reflexivity | discriminate]. Qed.

(** C6, amended.  For field values that hold no newline, the complete
    standard output has exactly three lines, in this order: the package
    line, the sha line, the description line. *)
Theorem main_three_lines (b : BuildInfo) (argc : Z) (argv : list cstr) :
  no_lf (c_text (build_package b)) = true ->
  no_lf (c_text (build_revision_hash b)) = true ->
  no_lf (c_text (build_revision_description b)) = true ->
  option_map lines (program_output b argc argv [])
  = Some [ "package " ++ c_text (build_package b);
           "git sha = " ++ c_text (build_revision_hash b);
           "git decription = " ++ c_text (build_revision_description b) ].
Proof.
  intros Hp Hh Hd.
  rewrite program_output_no_fault. unfold report_text, Version_of, text_of.
  cbn [option_map package git_sha1 git_description]. f_equal.
  set (p := c_text (build_package b)) in *.
  set (h := c_text (build_revision_hash b)) in *.
  set (d := c_text (build_revision_description b)) in *.
  rewrite <- (append_assoc "package " p).
  rewrite lines_first by (rewrite no_lf_app, Hp; reflexivity).
  rewrite <- (append_assoc "git sha = " h).
  rewrite lines_first by (rewrite no_lf_app, Hh; reflexivity).
  rewrite <- (append_assoc "git decription = " d).
  change nl with (nl ++ EmptyString) at 1.
  rewrite lines_first by (rewrite no_lf_app, Hd; reflexivity).
  reflexivity.
Qed.

Lemma main_three_lines_witness :
  no_lf (c_text (build_package demo_build)) = true
  /\ no_lf (c_text (build_revision_hash demo_build)) = true
  /\ no_lf (c_text (build_revision_description demo_build)) = true
  /\ option_map lines (program_output demo_build 1 [Some "version"] [])
     = Some [ "package " ++ c_text (build_package demo_build);
              "git sha = " ++ c_text (build_revision_hash demo_build);
              "git decription = "
                ++ c_text (build_revision_description demo_build) ].
Proof.
  split; [reflexivity|]. split; [reflexivity|]. split; [reflexivity|].
  apply (main_three_lines demo_build 1 [Some "version"]); reflexivity.
Defined.

(** C7.  The fields are read-only for the lifetime of the process: a run
    constructs exactly one [Version] object, which at the end still holds
    what its construction gave it, and none of the operations that follow
    the construction (reading a member, [printf], hence the whole report)
    changes any object. *)
Theorem version_constructed_once_and_read_only (b : BuildInfo) (argc : Z)
    (argv : list cstr) (env : list write_result) :
  (exists s', main b argc argv (start env) = Normal 0%Z s'
              /\ objects s' = [Version_of b])
  /\ (forall r f, preserves_objects (member r f))
  /\ (forall fmt args, preserves_objects (printf fmt args))
  /\ (forall r, preserves_objects (report r)).
Proof.
  split.
  - destruct (main_returns b argc argv (start env)) as (s' & E & O).
    exists s'. split; [exact E | exact O].
  - split; [exact preserves_member|].
    split; [exact preserves_printf | exact preserves_report].
Qed.

(** C8.  Constructing the version value takes nothing from the caller and
    never fails: in every state it returns a new object whose three members
    read back as the build-time values, and writes nothing. *)
Theorem Version_construction_succeeds (b : BuildInfo) (s : process) :
  exists version s',
    Version_new b s = Normal version s'
    /\ member version package s' = Normal (Some (build_package b)) s'
    /\ member version git_sha1 s' = Normal (Some (build_revision_hash b)) s'
    /\ member version git_description s'
       = Normal (Some (build_revision_description b)) s'
    /\ stdout s' = stdout s.
Proof.
  set (s' := {| stdout := stdout s; faults := faults s;
                objects := (objects s ++ [Version_of b])%list |}).
  exists (List.length (objects s)), s'. split; [reflexivity|].
  assert (H : nth_error (objects s') (List.length (objects s))
              = Some (Version_of b)) by apply nth_error_snoc.
  split; [exact (member_at _ package s' _ H)|].
  split; [exact (member_at _ git_sha1 s' _ H)|].
  split; [exact (member_at _ git_description s' _ H) | reflexivity].
Qed.

(** C9.  When the three members of the reported object are non-null, each of
    the three writes of the report is defined in every state, and the report
    as a whole returns: the undefined branch is not reached. *)
Theorem report_defined (r : nat) (s : process) (v : Version) :
  nth_error (objects s) r = Some v ->
  non_null v ->
  (forall s0, printf ("package %s" ++ nl) [package v] s0 <> Undefined)
  /\ (forall s0, printf ("git sha = %s" ++ nl) [git_sha1 v] s0 <> Undefined)
  /\ (forall s0,
        printf ("git decription = %s" ++ nl) [git_description v] s0 <> Undefined)
  /\ exists s', report r s = Normal tt s'.
Proof.
  intros H Hv. assert (Hv' := Hv). destruct Hv' as (Hp & Hh & Hd).
  destruct v as [[p|] [h|] [d|]]; cbn in Hp, Hh, Hd; try congruence.
  cbn [package git_sha1 git_description].
  split; [|split; [|split]].
  - intros s0. rewrite printf_package.
    destruct (transmit_normal ("package " ++ c_text p ++ nl) s0) as (z & s1 & E & _).
    rewrite E. discriminate.
  - intros s0. rewrite printf_git_sha.
    destruct (transmit_normal ("git sha = " ++ c_text h ++ nl) s0) as (z & s1 & E & _).
    rewrite E. discriminate.
  - intros s0. rewrite printf_git_decription.
    destruct (transmit_normal ("git decription = " ++ c_text d ++ nl) s0)
      as (z & s1 & E & _).
    rewrite E. discriminate.
  - exact (report_returns r s _ H Hv).
Qed.

Lemma report_defined_witness :
  (forall s0,
     printf ("package %s" ++ nl) [package (Version_of demo_build)] s0 <> Undefined)
  /\ (forall s0,
        printf ("git sha = %s" ++ nl) [git_sha1 (Version_of demo_build)] s0
        <> Undefined)
  /\ (forall s0,
        printf ("git decription = %s" ++ nl)
               [git_description (Version_of demo_build)] s0 <> Undefined)
  /\ exists s',
       report 0 {| stdout := EmptyString; faults := [OutputError 3];
                   objects := [Version_of demo_build] |} = Normal tt s'.
Proof.
  apply (report_defined 0
           {| stdout := EmptyString; faults := [OutputError 3];
              objects := [Version_of demo_build] |}
           (Version_of demo_build)).
  - reflexivity.
  - repeat split; discriminate.
Defined.

(** C10.  Each field's text reaches the output as it is: the field is the
    argument of a [%s], not a format, so whatever characters it holds,
    percent signs among them, are copied and never read as directives. *)
Theorem report_fields_verbatim (r : nat) (out : string) (objs : list Version)
    (p h d : string) :
  nth_error objs r
  = Some {| package := Some p; git_sha1 := Some h; git_description := Some d |} ->
  report r {| stdout := out; faults := []; objects := objs |}
  = Normal tt
      {| stdout := out ++ "package " ++ c_text p ++ nl ++
                          "git sha = " ++ c_text h ++ nl ++
                          "git decription = " ++ c_text d ++ nl;
         faults := [];
         objects := objs |}.
Proof.
  intros H.
  apply (report_no_fault r out objs _ H).
  repeat split; discriminate.
Qed.

Lemma report_fields_verbatim_witness :
  nth_error [percent_version] 0
  = Some {| package := Some "100%s"; git_sha1 := Some "%n%n";
            git_description := Some "%d%%" |}
  /\ report 0 {| stdout := EmptyString; faults := []; objects := [percent_version] |}
     = Normal tt
         {| stdout := EmptyString ++ "package " ++ c_text "100%s" ++ nl ++
                                     "git sha = " ++ c_text "%n%n" ++ nl ++
                                     "git decription = " ++ c_text "%d%%" ++ nl;
            faults := [];
            objects := [percent_version] |}.
Proof.
  split; [reflexivity|].
  apply (report_fields_verbatim 0 EmptyString [percent_version]
           "100%s" "%n%n" "%d%%").
  reflexivity.
Defined.

(** * Runs on concrete inputs *)

Example main_demo :
  main demo_build 1 [Some "version"] (start [])
  = Normal 0%Z
      {| stdout := "package demo-pkg" ++ nl ++ "git sha = abc1234" ++ nl ++
                   "git decription = v1.2.0-3-gabc1234" ++ nl;
         faults := [];
         objects := [Version_of demo_build] |}.
Proof. reflexivity. Qed.

Example main_empty_fields :
  main empty_build 0 [] (start [])
  = Normal 0%Z
      {| stdout := "package " ++ nl ++ "git sha = " ++ nl ++
                   "git decription = " ++ nl;
         faults := [];
         objects := [Version_of empty_build] |}.
Proof. reflexivity. Qed.

(** Failing writes lose text; [main] goes on and returns 0. *)
Example main_failing_writes :
  main demo_build 1 [Some "version"]
       (start [OutputError 3; Transmitted; OutputError 0])
  = Normal 0%Z
      {| stdout := "pac" ++ "git sha = abc1234" ++ nl;
         faults := [];
         objects := [Version_of demo_build] |}.
Proof. reflexivity. Qed.

(** A percent sign in a field is text; in a format it starts a directive. *)
Example percent_in_field_and_in_format :
  vformat ("package %s" ++ nl) [Some "100%s"] = Some ("package 100%s" ++ nl)
  /\ vformat "package 100%s" [] = None.
Proof. split; reflexivity. Qed.

(** A text ends at its first NUL. *)
Example text_ends_at_nul :
  c_text ("v1" ++ String NUL "rest") = "v1".
Proof. reflexivity. Qed.

Example report_null_member :
  report 0 {| stdout := EmptyString; faults := [];
              objects := [null_package_version] |} = Undefined.
Proof. reflexivity. Qed.

(** * Beyond the contract *)

(** ** Texts and lines *)

Lemma c_text_app (a b : string) :
  nul_free a = true -> c_text (a ++ b) = a ++ c_text b.
Proof.
  induction a as [|x a IH]; intros H; simpl in *.
  - reflexivity.
  - apply andb_true_iff in H as [Hx Ha].
    apply negb_true_iff in Hx. now rewrite Hx, (IH Ha).
Qed.

Lemma append_longer_neq (a : string) (c : ascii) (w : string) :
  a <> a ++ String c w.
Proof.
  induction a as [|x a IH]; simpl; intros E.
  - discriminate.
  - injection E as E. exact (IH E).
Qed.

Lemma count_lf_app (a b : string) :
  count_lf (a ++ b) = (count_lf a + count_lf b)%nat.
Proof.
  induction a as [|x a IH]; simpl.
  - reflexivity.
  - destruct (Ascii.eqb x LF); simpl; now rewrite IH.
Qed.

Lemma count_lf_zero (a : string) : count_lf a = O <-> no_lf a = true.
Proof.
  induction a as [|x a IH]; simpl.
  - split; reflexivity.
  - destruct (Ascii.eqb x LF); simpl.
    + split; discriminate.
    + exact IH.
Qed.

(** Every newline of a text that ends in one closes a line. *)
Lemma length_lines_first (a rest : string) :
  List.length (lines (a ++ nl ++ rest))
  = (count_lf a + S (List.length (lines rest)))%nat.
Proof.
  induction a as [|x a IH]; simpl in *.
  - reflexivity.
  - destruct (Ascii.eqb x LF); simpl.
    + now rewrite IH.
    + destruct (lines (a ++ String LF rest)) as [|l ls]; simpl in *.
      * lia.
      * exact IH.
Qed.

Lemma length_lines_report_text (v : Version) :
  List.length (lines (report_text v))
  = (3 + count_lf (text_of (package v)) + count_lf (text_of (git_sha1 v))
       + count_lf (text_of (git_description v)))%nat.
Proof.
  unfold report_text.
  set (p := text_of (package v)).
  set (h := text_of (git_sha1 v)).
  set (d := text_of (git_description v)).
  rewrite <- (append_assoc "package " p), length_lines_first.
  rewrite <- (append_assoc "git sha = " h), length_lines_first.
  rewrite <- (append_assoc "git decription = " d).
  change nl with (nl ++ EmptyString) at 1.
  rewrite length_lines_first.
  rewrite !count_lf_app. simpl. lia.
Qed.

Lemma lines_report_text (v : Version) :
  no_lf (text_of (package v)) = true ->
  no_lf (text_of (git_sha1 v)) = true ->
  no_lf (text_of (git_description v)) = true ->
  lines (report_text v)
  = [ "package " ++ text_of (package v);
      "git sha = " ++ text_of (git_sha1 v);
      "git decription = " ++ text_of (git_description v) ].
Proof.
  intros Hp Hh Hd. unfold report_text.
  set (p := text_of (package v)) in *.
  set (h := text_of (git_sha1 v)) in *.
  set (d := text_of (git_description v)) in *.
  rewrite <- (append_assoc "package " p).
  rewrite lines_first by (rewrite no_lf_app, Hp; reflexivity).
  rewrite <- (append_assoc "git sha = " h).
  rewrite lines_first by (rewrite no_lf_app, Hh; reflexivity).
  rewrite <- (append_assoc "git decription = " d).
  change nl with (nl ++ EmptyString) at 1.
  rewrite lines_first by (rewrite no_lf_app, Hd; reflexivity).
  reflexivity.
Qed.

(** ** Writes that fail *)

Lemma transmit_any (text out : string) (env : list write_result)
    (objs : list Version) :
  exists z,
    transmit text {| stdout := out; faults := env; objects := objs |}
    = Normal z {| stdout := out ++ delivered (hd_error env) text;
                  faults := tl env; objects := objs |}.
Proof.
  destruct env as [|[|sent] later]; eexists; reflexivity.
Qed.

Lemma report_any_writes (r : nat) (out : string) (env : list write_result)
    (objs : list Version) (p h d : string) :
  nth_error objs r
  = Some {| package := Some p; git_sha1 := Some h; git_description := Some d |} ->
  report r {| stdout := out; faults := env; objects := objs |}
  = Normal tt
      {| stdout :=
           out ++ delivered (nth_error env 0) ("package " ++ c_text p ++ nl)
               ++ delivered (nth_error env 1) ("git sha = " ++ c_text h ++ nl)
               ++ delivered (nth_error env 2)
                    ("git decription = " ++ c_text d ++ nl);
         faults := skipn 3 env;
         objects := objs |}.
Proof.
  intros H.
  pose proof (fun o e f =>
                member_at r f {| stdout := o; faults := e; objects := objs |} _ H)
    as Mf.
  cbn [package git_sha1 git_description] in Mf.
  destruct (transmit_any ("package " ++ c_text p ++ nl) out env objs)
    as (z1 & E1).
  destruct (transmit_any ("git sha = " ++ c_text h ++ nl)
              (out ++ delivered (hd_error env) ("package " ++ c_text p ++ nl))
              (tl env) objs) as (z2 & E2).
  destruct (transmit_any ("git decription = " ++ c_text d ++ nl)
              ((out ++ delivered (hd_error env) ("package " ++ c_text p ++ nl))
                 ++ delivered (hd_error (tl env)) ("git sha = " ++ c_text h ++ nl))
              (tl (tl env)) objs) as (z3 & E3).
  rewrite <- printf_package in E1.
  rewrite <- printf_git_sha in E2.
  rewrite <- printf_git_decription in E3.
  unfold report.
  rewrite (bind_normal _ _ _ _ _ (Mf _ _ package)); cbv beta.
  cbn [package git_sha1 git_description].
  rewrite (bind_normal _ _ _ _ _ E1); cbv beta.
  rewrite (bind_normal _ _ _ _ _ (Mf _ _ git_sha1)); cbv beta.
  cbn [package git_sha1 git_description].
  rewrite (bind_normal _ _ _ _ _ E2); cbv beta.
  rewrite (bind_normal _ _ _ _ _ (Mf _ _ git_description)); cbv beta.
  cbn [package git_sha1 git_description].
  rewrite (bind_normal _ _ _ _ _ E3); cbv beta.
  unfold ret. rewrite !append_assoc.
  destruct env as [|w1 [|w2 [|w3 env]]]; reflexivity.
Qed.

(** X1.  [main] under any outcomes of its writes: it never looks at what
    [printf] returns, so all three writes are attempted, in order, after any
    failure.  Each line arrives whole, or cut where its write failed; what
    was on standard output before stays in front; exactly three outcomes are
    used up; one object is added; and the result is 0. *)
Theorem main_any_writes (b : BuildInfo) (argc : Z) (argv : list cstr)
    (out : string) (env : list write_result) (objs : list Version) :
  main b argc argv {| stdout := out; faults := env; objects := objs |}
  = Normal 0%Z
      {| stdout :=
           out ++ delivered (nth_error env 0)
                    ("package " ++ c_text (build_package b) ++ nl)
               ++ delivered (nth_error env 1)
                    ("git sha = " ++ c_text (build_revision_hash b) ++ nl)
               ++ delivered (nth_error env 2)
                    ("git decription = "
                       ++ c_text (build_revision_description b) ++ nl);
         faults := skipn 3 env;
         objects := (objs ++ [Version_of b])%list |}.
Proof.
  rewrite main_as_report.
  unfold bind at 1. cbn [Version_new stdout faults objects].
  rewrite (bind_normal _ _ _ _ _
             (report_any_writes _ out env _ _ _ _
                (nth_error_snoc objs (Version_of b)))).
  reflexivity.
Qed.

(** X2.  The three writes pass the members to [%s] without a test: for an
    object in the store, the report is undefined exactly when one of its
    three members is null, whatever the outcomes of the writes. *)
Theorem report_undefined_iff_null (r : nat) (s : process) (v : Version) :
  nth_error (objects s) r = Some v ->
  report r s = Undefined <-> ~ non_null v.
Proof.
  intros H. split.
  - intros U Hv. destruct (report_returns r s v H Hv) as (s' & E).
    rewrite E in U. discriminate.
  - intros Hn. destruct v as [[p|] h d].
    2: { apply (report_null_package r s _ H). reflexivity. }
    destruct (transmit_normal ("package " ++ c_text p ++ nl) s)
      as (z1 & s1 & E1 & O1).
    rewrite <- printf_package in E1.
    assert (H1 := H). rewrite <- O1 in H1.
    unfold report.
    rewrite (bind_normal _ _ _ _ _ (member_at _ _ _ _ H)); cbv beta.
    cbn [package git_sha1 git_description].
    rewrite (bind_normal _ _ _ _ _ E1); cbv beta.
    rewrite (bind_normal _ _ _ _ _ (member_at _ _ _ _ H1)); cbv beta.
    cbn [package git_sha1 git_description].
    destruct h as [h|]; [|reflexivity].
    destruct (transmit_normal ("git sha = " ++ c_text h ++ nl) s1)
      as (z2 & s2 & E2 & O2).
    rewrite <- printf_git_sha in E2.
    assert (H2 := H1). rewrite <- O2 in H2.
    rewrite (bind_normal _ _ _ _ _ E2); cbv beta.
    rewrite (bind_normal _ _ _ _ _ (member_at _ _ _ _ H2)); cbv beta.
    cbn [package git_sha1 git_description].
    destruct d as [d|]; [|reflexivity].
    exfalso. apply Hn. repeat split; discriminate.
Qed.

Lemma report_undefined_iff_null_witness :
  nth_error [null_package_version] 0 = Some null_package_version
  /\ (report 0 {| stdout := EmptyString; faults := [OutputError 2];
                  objects := [null_package_version] |} = Undefined
      <-> ~ non_null null_package_version).
Proof.
  split; [reflexivity|].
  apply (report_undefined_iff_null 0
           {| stdout := EmptyString; faults := [OutputError 2];
              objects := [null_package_version] |}
           null_package_version).
  reflexivity.
Defined.

(** X3.  The number of lines of the complete output, for any field values:
    three, and one more for each newline that a field holds. *)
Theorem main_line_count (b : BuildInfo) (argc : Z) (argv : list cstr) :
  option_map (fun out => List.length (lines out)) (program_output b argc argv [])
  = Some (3 + count_lf (c_text (build_package b))
            + count_lf (c_text (build_revision_hash b))
            + count_lf (c_text (build_revision_description b)))%nat.
Proof.
  rewrite program_output_no_fault. cbn [option_map]. f_equal.
  apply length_lines_report_text.
Qed.

(** X4.  The output tells the fields: when the fields of one build hold no
    newline and a second build, whatever its fields, gives the same output,
    the three texts of the two builds are the same. *)
Theorem program_output_determines_fields (b1 b2 : BuildInfo) (argc1 argc2 : Z)
    (argv1 argv2 : list cstr) :
  no_lf (c_text (build_package b1)) = true ->
  no_lf (c_text (build_revision_hash b1)) = true ->
  no_lf (c_text (build_revision_description b1)) = true ->
  program_output b1 argc1 argv1 [] = program_output b2 argc2 argv2 [] ->
  c_text (build_package b1) = c_text (build_package b2)
  /\ c_text (build_revision_hash b1) = c_text (build_revision_hash b2)
  /\ c_text (build_revision_description b1)
     = c_text (build_revision_description b2).
Proof.
  intros Hp Hh Hd E.
  rewrite !program_output_no_fault in E.
  assert (E' : report_text (Version_of b1) = report_text (Version_of b2))
    by congruence.
  clear E. rename E' into E.
  pose proof (length_lines_report_text (Version_of b1)) as L1.
  pose proof (length_lines_report_text (Version_of b2)) as L2.
  rewrite E in L1. rewrite L2 in L1.
  cbn [Version_of text_of package git_sha1 git_description] in L1.
  apply count_lf_zero in Hp, Hh, Hd.
  rewrite Hp, Hh, Hd in L1.
  assert (Hp2 : no_lf (c_text (build_package b2)) = true)
    by (apply count_lf_zero; lia).
  assert (Hh2 : no_lf (c_text (build_revision_hash b2)) = true)
    by (apply count_lf_zero; lia).
  assert (Hd2 : no_lf (c_text (build_revision_description b2)) = true)
    by (apply count_lf_zero; lia).
  apply count_lf_zero in Hp, Hh, Hd.
  pose proof (lines_report_text (Version_of b1) Hp Hh Hd) as T1.
  pose proof (lines_report_text (Version_of b2) Hp2 Hh2 Hd2) as T2.
  rewrite E in T1. rewrite T2 in T1.
  cbn [Version_of text_of package git_sha1 git_description] in T1.
  simpl in T1. injection T1 as Ep Eh Ed.
  repeat split; congruence.
Qed.

Lemma program_output_determines_fields_witness :
  no_lf (c_text (build_package demo_build)) = true
  /\ no_lf (c_text (build_revision_hash demo_build)) = true
  /\ no_lf (c_text (build_revision_description demo_build)) = true
  /\ program_output demo_build 1 [Some "version"] []
     = program_output demo_build 3 [Some "version"; Some "-v"; None] []
  /\ c_text (build_package demo_build) = c_text (build_package demo_build)
  /\ c_text (build_revision_hash demo_build)
     = c_text (build_revision_hash demo_build)
  /\ c_text (build_revision_description demo_build)
     = c_text (build_revision_description demo_build).
Proof.
  split; [reflexivity|]. split; [reflexivity|]. split; [reflexivity|].
  split; [reflexivity|].
  apply (program_output_determines_fields demo_build demo_build 1 3
           [Some "version"] [Some "version"; Some "-v"; None]);
    reflexivity.
Defined.

(** X5.  Fields are not escaped: a newline and a label inside a field look
    like a line of the report.  A build whose hash is [y], newline,
    [git sha = z] and a build whose package is [x], newline, [git sha = y]
    with hash [z] give the same output, though their package texts
    differ. *)
Theorem program_output_ambiguous (x y z d : string) (argc : Z)
    (argv : list cstr) :
  nul_free x = true ->
  nul_free y = true ->
  program_output
    {| build_package := x;
       build_revision_hash := y ++ nl ++ "git sha = " ++ z;
       build_revision_description := d |} argc argv []
  = program_output
      {| build_package := x ++ nl ++ "git sha = " ++ y;
         build_revision_hash := z;
         build_revision_description := d |} argc argv []
  /\ c_text x <> c_text (x ++ nl ++ "git sha = " ++ y).
Proof.
  intros Hx Hy.
  assert (Ey : c_text (y ++ nl ++ "git sha = " ++ z)
               = y ++ nl ++ "git sha = " ++ c_text z)
    by (rewrite (c_text_app y _ Hy); reflexivity).
  assert (Ex : c_text (x ++ nl ++ "git sha = " ++ y)
               = x ++ nl ++ "git sha = " ++ c_text y).
  { rewrite (c_text_app x _ Hx). reflexivity. }
  split.
  - rewrite !program_output_no_fault. f_equal.
    unfold report_text, Version_of, text_of.
    cbn [package git_sha1 git_description
         build_package build_revision_hash build_revision_description].
    rewrite Ex, Ey, (c_text_nul_free y Hy), (c_text_nul_free x Hx).
    rewrite !append_assoc. reflexivity.
  - rewrite Ex, (c_text_nul_free x Hx). apply append_longer_neq.
Qed.

Lemma program_output_ambiguous_witness :
  nul_free "demo-pkg" = true
  /\ nul_free "abc1234" = true
  /\ program_output
       {| build_package := "demo-pkg";
          build_revision_hash := "abc1234" ++ nl ++ "git sha = " ++ "fff0000";
          build_revision_description := "v1" |} 1 [Some "version"] []
     = program_output
         {| build_package := "demo-pkg" ++ nl ++ "git sha = " ++ "abc1234";
            build_revision_hash := "fff0000";
            build_revision_description := "v1" |} 1 [Some "version"] []
  /\ c_text "demo-pkg" <> c_text ("demo-pkg" ++ nl ++ "git sha = " ++ "abc1234").
Proof.
  split; [reflexivity|]. split; [reflexivity|].
  apply (program_output_ambiguous "demo-pkg" "abc1234" "fff0000" "v1" 1
           [Some "version"]); reflexivity.
Defined.
